(** * worker-to-promise: a shallow embedding of [lib/worker-to-promise.js]

    The library builds the text of a worker program from a function and a
    list of dependency declarations, starts a [Worker] on that text and maps
    the worker's first message (or its ['error'] event) onto one promise.

    Layout of the development:
    - [JsString]  : the string built-ins the source calls ([substring],
                    [split], [join], [trim], [replace], number rendering);
    - values, host errors and the [result] monad for code that may throw;
    - [WorkerError], the program synthesizer, the harness, the bridge;
    - [Json]      : a small executable JSON codec, used to run the model on
                    concrete inputs (the theorems hold for any host codec);
    - the theorems. *)

From Stdlib Require Import Ascii String DecimalString ZArith Lia.
From stdpp Require Import gmap strings list.
Set Warnings "-register-all".

(* ===================================================================== *)
(** ** String built-ins                                                    *)
(* ===================================================================== *)

(** A string is its sequence of code units; the model keeps to the code
    units below 256, one [ascii] each. *)
Module JsString.

Definition newline : ascii := "010"%char.
Definition nl : string := String newline "".

(** [s.length] *)
Definition length (s : string) : nat := String.length s.

Fixpoint drop (n : nat) (s : string) : string :=
  match n, s with
  | 0, _ => s
  | S _, EmptyString => EmptyString
  | S n', String _ s' => drop n' s'
  end.

Fixpoint take (n : nat) (s : string) : string :=
  match n, s with
  | 0, _ => EmptyString
  | S _, EmptyString => EmptyString
  | S n', String c s' => String c (take n' s')
  end.

(** [s.substring(start, end)]: both indices are clamped to the length and
    swapped when [start > end]. *)
Definition substring (start end_ : nat) (s : string) : string :=
  let lo := Nat.min start end_ in
  let hi := Nat.max start end_ in
  take (hi - lo) (drop lo s).

(** [s.substring(start)] *)
Definition substring_from (start : nat) (s : string) : string :=
  drop start s.

(** [s.split(c)] for a one-character separator; [''.split(c)] is [['']]. *)
Fixpoint split (sep : ascii) (s : string) : list string :=
  match s with
  | EmptyString => [EmptyString]
  | String c s' =>
      if Ascii.eqb c sep then EmptyString :: split sep s'
      else match split sep s' with
           | h :: t => String c h :: t
           | [] => [String c EmptyString]
           end
  end.

(** [xs.join(sep)] on an array of strings. *)
Fixpoint join (sep : string) (xs : list string) : string :=
  match xs with
  | [] => EmptyString
  | [x] => x
  | x :: rest => x +:+ sep +:+ join sep rest
  end.

(** White space and line terminators among the code units below 256: tab,
    line feed, vertical tab, form feed, carriage return, space and the
    no-break space. *)
Definition is_white_space (c : ascii) : bool :=
  match c with
  | "009" | "010" | "011" | "012" | "013" | " " | "160" => true
  | _ => false
  end%char.

Fixpoint trim_start (s : string) : string :=
  match s with
  | EmptyString => EmptyString
  | String c s' => if is_white_space c then trim_start s' else s
  end.

Fixpoint trim_end (s : string) : string :=
  match s with
  | EmptyString => EmptyString
  | String c s' =>
      match trim_end s' with
      | EmptyString => if is_white_space c then EmptyString else String c EmptyString
      | t => String c t
      end
  end.

(** [s.trim()] *)
Definition trim (s : string) : string := trim_end (trim_start s).

Fixpoint strip_prefix (p s : string) : option string :=
  match p, s with
  | EmptyString, _ => Some s
  | String _ _, EmptyString => None
  | String a p', String b s' => if Ascii.eqb a b then strip_prefix p' s' else None
  end.

(** First occurrence of [pat] in [s]: the text before it and the text
    after it. *)
Fixpoint find_first (pat s : string) : option (string * string) :=
  match strip_prefix pat s with
  | Some rest => Some (EmptyString, rest)
  | None =>
      match s with
      | EmptyString => None
      | String c s' =>
          match find_first pat s' with
          | Some (before, after) => Some (String c before, after)
          | None => None
          end
      end
  end.

(** GetSubstitution for a string pattern (no capture groups): in the
    replacement text [$$] is a dollar, [$&] the match, [$`] the text
    before the match and [$'] the text after it; any other [$] is kept. *)
Fixpoint get_substitution (matched before after replacement : string) : string :=
  match replacement with
  | EmptyString => EmptyString
  | String "$" (String "$" r) => String "$" (get_substitution matched before after r)
  | String "$" (String "&" r) => matched +:+ get_substitution matched before after r
  | String "$" (String "`" r) => before +:+ get_substitution matched before after r
  | String "$" (String "'" r) => after +:+ get_substitution matched before after r
  | String c r => String c (get_substitution matched before after r)
  end.

(** [s.replace(pat, replacement)] with a string pattern: only the first
    occurrence is replaced; without an occurrence [s] is returned. *)
Definition replace (pat replacement s : string) : string :=
  match find_first pat s with
  | Some (before, after) =>
      before +:+ get_substitution pat before after replacement +:+ after
  | None => s
  end.

(** Decimal rendering of a natural number and of an integer. *)
Definition of_nat (n : nat) : string := NilEmpty.string_of_uint (Nat.to_uint n).
Definition of_Z (z : Z) : string := NilZero.string_of_int (Z.to_int z).

End JsString.

(* ===================================================================== *)
(** ** Values, host errors, code that may throw                            *)
(* ===================================================================== *)

(** The data the library handles: payloads, decoded messages, worker
    options.  Numbers are restricted to integers (rendered in decimal, as
    the host does for integers below 10^21); an object is its list of own
    properties. *)
Inductive value : Type :=
| VUndefined
| VNull
| VBool (b : bool)
| VNum (n : Z)
| VStr (s : string)
| VArr (items : list value)
| VObj (props : list (string * value)).

(** A host [Error] object ([TypeError], [SyntaxError], ...), as far as the
    library reads it: [e.message] and [e.stack]. *)
Record Error : Type := mkError { err_message : string; err_stack : string }.

(** Outcome of an expression that either has a value or throws. *)
Inductive result (A : Type) : Type :=
| Ok (a : A)
| Throw (e : Error).
Arguments Ok {A} a.
Arguments Throw {A} e.

(** Sequencing: a [throw] skips the rest.  With these instances the model
    is written with stdpp's [x ← e; k]. *)
#[global] Instance result_ret : MRet result := fun A a => Ok a.
#[global] Instance result_bind : MBind result := fun A B k r =>
  match r with
  | Ok a => k a
  | Throw e => Throw e
  end.

(** ToString, as applied by a template literal [`${v}`]. *)
Fixpoint to_string (v : value) : string :=
  match v with
  | VUndefined => "undefined"
  | VNull => "null"
  | VBool true => "true"
  | VBool false => "false"
  | VNum n => JsString.of_Z n
  | VStr s => s
  | VArr items =>
      JsString.join ","
        (map (fun x => match x with
                       | VUndefined | VNull => EmptyString
                       | _ => to_string x
                       end) items)
  | VObj _ => "[object Object]"
  end.

Fixpoint assoc (k : string) (props : list (string * value)) : option value :=
  match props with
  | [] => None
  | (k', v) :: rest => if String.eqb k k' then Some v else assoc k rest
  end.

Section Properties.
(** The host's [TypeError] for reading the named property of [undefined]
    or [null]. *)
Variable TypeError_reading : string -> Error.

(** [v.k] for a data property [k] ([message], [stack]): reading from
    [undefined] or [null] throws, an object yields its property or
    [undefined], and the other values have no such property. *)
Definition get_field (v : value) (k : string) : result value :=
  match v with
  | VUndefined | VNull => Throw (TypeError_reading k)
  | VObj props =>
      match assoc k props with
      | Some x => Ok x
      | None => Ok VUndefined
      end
  | _ => Ok VUndefined
  end.
End Properties.

(* ===================================================================== *)
(** ** WorkerError                                                         *)
(* ===================================================================== *)

Record WorkerError : Type := mkWorkerError {
  message : string;
  stack : string;
  generatedCode : string
}.

(** [super(message)]: the [Error] constructor stores [ToString(message)]
    unless the argument is [undefined], in which case [e.message] is the
    prototype's empty string. *)
Definition Error_message (msg : value) : string :=
  match msg with
  | VUndefined => EmptyString
  | _ => to_string msg
  end.

(** [generatedCode.split('\n').map((line, index) => `${index + 1}: ${line}`)] *)
Fixpoint map_indexed (index : nat) (lines : list string) : list string :=
  match lines with
  | [] => []
  | line :: rest =>
      (JsString.of_nat (index + 1) +:+ ": " +:+ line) :: map_indexed (S index) rest
  end.

Definition number_lines (code : string) : string :=
  JsString.join JsString.nl (map_indexed 0 (JsString.split JsString.newline code)).

(** The text between [${stack}] and [${this.generatedCode.trim()}] in the
    template of the constructor, and the text after it. *)
Definition stack_banner : string :=
  JsString.nl +:+ "    " +:+
  JsString.nl +:+ "    " +:+
  JsString.nl +:+ "    ========== GENERATED CODE ===============" +:+
  JsString.nl +:+
  JsString.nl +:+ "    ".

Definition stack_trailer : string := JsString.nl +:+ "    ".

(** [new WorkerError(message, stack, generatedCode)] *)
Definition new_WorkerError (msg stk : value) (code : string) : WorkerError :=
  let dump := number_lines code in
  {| message := Error_message msg;
     generatedCode := dump;
     stack := to_string stk +:+ stack_banner +:+ JsString.trim dump +:+ stack_trailer |}.

(* ===================================================================== *)
(** ** The program synthesizer                                             *)
(* ===================================================================== *)

(** A dependency declaration [{from, exports, default}]; an absent property
    is [None]. *)
Record Dependency : Type := mkDependency {
  dep_from : option string;
  dep_exports : option (list string);
  dep_default : option string
}.

(** A function as the synthesizer sees it: [f.name] and [f.toString()]. *)
Record JsFunction : Type := mkFunction {
  fn_name : string;
  fn_source : string
}.

(** [`${x}`] for a property that holds a string or is absent. *)
Definition template_of (x : option string) : string :=
  match x with
  | Some s => s
  | None => "undefined"
  end.

(** [dependency.exports && dependency.exports.length] *)
Definition has_exports (dependency : Dependency) : bool :=
  match dep_exports dependency with
  | Some names => negb (Nat.eqb (List.length names) 0)
  | None => false
  end.

(** [dependency.default && dependency.default.length] *)
Definition has_default (dependency : Dependency) : bool :=
  match dep_default dependency with
  | Some name => negb (Nat.eqb (JsString.length name) 0)
  | None => false
  end.

(** [`const {${dependency.exports.join(',')}} = require('${dependency.from}');`] *)
Definition exports_statement (dependency : Dependency) : string :=
  "const {" +:+ JsString.join "," (default [] (dep_exports dependency)) +:+
  "} = require('" +:+ template_of (dep_from dependency) +:+ "');".

(** [`const ${dependency.default} = require('${dependency.from}');`] *)
Definition default_statement (dependency : Dependency) : string :=
  "const " +:+ template_of (dep_default dependency) +:+
  " = require('" +:+ template_of (dep_from dependency) +:+ "');".

(** One turn of the [for ... of] loop: up to two [depStrings.push]. *)
Definition push_dependency (depStrings : list string) (dependency : Dependency)
  : list string :=
  let depStrings :=
    if has_exports dependency
    then depStrings ++ [exports_statement dependency] else depStrings in
  if has_default dependency
  then depStrings ++ [default_statement dependency] else depStrings.

(** The array [depStrings] when the loop ends. *)
Definition depStrings (dependencies : list Dependency) : list string :=
  fold_left push_dependency dependencies [].

Definition createDependencyStrings (dependencies : list Dependency) : string :=
  JsString.join JsString.nl (depStrings dependencies).

(** [__workerScript.toString()]: the source text of the harness. *)
Definition __workerScript_source : string :=
  JsString.join JsString.nl [
    "function __workerScript() {";
    "  __placeholderFor__('WORKER_FUNCTION')";
    "  const unknownResult = __placeholderFor__('WORKER_FUNCTION_NAME')(workerData)";
    "  Promise.resolve(unknownResult)";
    "    .then((data) => {";
    "      parentPort.postMessage(`res:${JSON.stringify(data)}`)";
    "    })";
    "    .catch((err) => {";
    "      parentPort.postMessage(`err:${JSON.stringify({message: err.message, stack: err.stack})}`)";
    "    })";
    "}" ].

Definition placeholder_function : string := "__placeholderFor__('WORKER_FUNCTION')".
Definition placeholder_name : string := "__placeholderFor__('WORKER_FUNCTION_NAME')".

(** The template literal of [buildWorkerScript], before the two [replace]. *)
Definition script_template (dependencies : list Dependency) : string :=
  JsString.nl +:+
  "        " +:+ createDependencyStrings dependencies +:+ JsString.nl +:+
  "        const { parentPort, workerData } = require('node:worker_threads');" +:+ JsString.nl +:+
  "        " +:+ __workerScript_source +:+ JsString.nl +:+
  "        ;" +:+ JsString.nl +:+
  "        __workerScript();" +:+ JsString.nl +:+
  "        ".

Section Synthesizer.
Variable TypeError_reading : string -> Error.

(** [workerFunc.name] and [workerFunc.toString()]; [None] is a
    [workerFunc] that is [undefined] or [null]. *)
Definition function_name (workerFunc : option JsFunction) : result string :=
  match workerFunc with
  | Some f => Ok (fn_name f)
  | None => Throw (TypeError_reading "name")
  end.

Definition function_toString (workerFunc : option JsFunction) : result string :=
  match workerFunc with
  | Some f => Ok (fn_source f)
  | None => Throw (TypeError_reading "toString")
  end.

Definition getFunctionString (workerFunc : option JsFunction) : result string :=
  name ← function_name workerFunc;
  source ← function_toString workerFunc;
  Ok ("const " +:+ name +:+ " = " +:+ source).

Definition buildWorkerScript (workerFunc : option JsFunction)
    (dependencies : list Dependency) : result string :=
  let text := script_template dependencies in
  functionString ← getFunctionString workerFunc;
  let text := JsString.replace placeholder_function functionString text in
  name ← function_name workerFunc;
  Ok (JsString.replace placeholder_name name text).
End Synthesizer.

(* ===================================================================== *)
(** ** The host                                                            *)
(* ===================================================================== *)

(** What the library takes from its host: the JSON codec, the [TypeError]
    raised by a property read on [undefined], and the [Worker] constructor,
    which either returns a worker or throws.  [JSON.stringify] returns
    [undefined] ([None]) for a value without a JSON text. *)
Record Host : Type := mkHost {
  JSON_parse : string -> result value;
  JSON_stringify : value -> option string;
  TypeError_reading : string -> Error;
  Worker_constructor : string -> gmap string value -> option Error
}.

(* ===================================================================== *)
(** ** The harness, as it runs inside the worker                           *)
(* ===================================================================== *)

Section Harness.
Variable host : Host.

(** The [.then] callback: [`res:${JSON.stringify(data)}`]. *)
Definition harness_then (data : value) : string :=
  "res:" +:+ template_of (JSON_stringify host data).

(** The [.catch] callback:
    [`err:${JSON.stringify({message: err.message, stack: err.stack})}`].
    It throws in turn when [err] is [undefined] or [null]; nothing is
    posted then. *)
Definition harness_catch (err : value) : result string :=
  msg ← get_field (TypeError_reading host) err "message";
  stk ← get_field (TypeError_reading host) err "stack";
  Ok ("err:" +:+
      template_of (JSON_stringify host (VObj [("message", msg); ("stack", stk)]))).
End Harness.

(* ===================================================================== *)
(** ** The bridge                                                          *)
(* ===================================================================== *)

(** What a caller can catch: a host error as it was thrown, or a
    [WorkerError]. *)
Inductive reason : Type :=
| RawError (e : Error)
| Wrapped (w : WorkerError).

Inductive settlement : Type :=
| Pending
| Fulfilled (v : value)
| Rejected (r : reason).

(** The promise returned by [workerToPromise] together with the listeners
    registered on its worker. *)
Record bridge : Type := mkBridge {
  script : string;            (* the program text the closures captured *)
  promise : settlement;
  error_listener : bool;      (* [worker.on('error', ...)] is registered *)
  message_listener : bool;    (* [worker.once('message', ...)] has not fired *)
  uncaught : list Error       (* exceptions that escaped a listener *)
}.

(** What the worker emits.  An ['error'] event carries an [Error] object, a
    ['message'] event the posted string. *)
Inductive event : Type :=
| ErrorSignal (e : Error)
| Message (m : string).

(** [resolve] and [reject] act on a pending promise only. *)
Definition settle (s : settlement) (b : bridge) : bridge :=
  match promise b with
  | Pending =>
      {| script := script b; promise := s;
         error_listener := error_listener b;
         message_listener := message_listener b;
         uncaught := uncaught b |}
  | _ => b
  end.

Definition remove_message_listener (b : bridge) : bridge :=
  {| script := script b; promise := promise b;
     error_listener := error_listener b;
     message_listener := false;
     uncaught := uncaught b |}.

Definition escape (e : Error) (b : bridge) : bridge :=
  {| script := script b; promise := promise b;
     error_listener := error_listener b;
     message_listener := message_listener b;
     uncaught := uncaught b ++ [e] |}.

(** The effect of running a listener. *)
Inductive action : Type :=
| Resolve (v : value)
| Reject (w : WorkerError)
| Nothing.

Definition perform (a : result action) (b : bridge) : bridge :=
  match a with
  | Ok (Resolve v) => settle (Fulfilled v) b
  | Ok (Reject w) => settle (Rejected (Wrapped w)) b
  | Ok Nothing => b
  | Throw e => escape e b
  end.

Section Bridge.
Variable host : Host.

(** [(e) => { reject(new WorkerError(e.message, e.stack, script)) }] *)
Definition on_error (script : string) (e : Error) : result action :=
  Ok (Reject (new_WorkerError (VStr (err_message e)) (VStr (err_stack e)) script)).

(** The ['message'] listener. *)
Definition on_message (script : string) (message : string) : result action :=
  let type := JsString.substring 0 3 message in
  let response := JsString.substring_from 4 message in
  result ← JSON_parse host response;
  if String.eqb type "res" then Ok (Resolve result)
  else if String.eqb type "err" then
    msg ← get_field (TypeError_reading host) result "message";
    stk ← get_field (TypeError_reading host) result "stack";
    Ok (Reject (new_WorkerError msg stk script))
  else Ok Nothing.

(** Delivery of one event: [on] keeps its listener, [once] removes it
    before it runs. *)
Definition deliver (b : bridge) (ev : event) : bridge :=
  match ev with
  | ErrorSignal e =>
      if error_listener b then perform (on_error (script b) e) b else b
  | Message m =>
      if message_listener b
      then perform (on_message (script b) m) (remove_message_listener b)
      else b
  end.

Definition deliver_all (b : bridge) (evs : list event) : bridge :=
  fold_left deliver evs b.

(** [{ ...workerProps, eval: true, workerData: payload }] *)
Definition worker_options (workerProps : gmap string value) (payload : value)
  : gmap string value :=
  <["workerData" := payload]> (<["eval" := VBool true]> workerProps).

(** The state in which the executor leaves a worker that was created. *)
Definition listening (script : string) : bridge :=
  {| script := script; promise := Pending;
     error_listener := true; message_listener := true; uncaught := [] |}.

(** A promise that was rejected without a worker. *)
Definition rejected_with (script : string) (r : reason) : bridge :=
  {| script := script; promise := Rejected r;
     error_listener := false; message_listener := false; uncaught := [] |}.

(** The executor passed to [new Promise]: it calls the [Worker]
    constructor and registers the two listeners.  The first component is
    the call made to the constructor. *)
Definition executor (script : string) (payload : value)
    (workerProps : gmap string value)
  : list (string * gmap string value) * result bridge :=
  let options := worker_options workerProps payload in
  ([(script, options)],
   match Worker_constructor host script options with
   | Some e => Throw e
   | None => Ok (listening script)
   end).

(** [new Promise(executor)]: an exception of the executor rejects the new
    promise with that exception; the constructor itself returns. *)
Definition new_Promise (script : string) (body : result bridge) : result bridge :=
  match body with
  | Ok b => Ok b
  | Throw e => Ok (rejected_with script (RawError e))
  end.

(** How a call of [workerToPromise] ends. *)
Inductive completion : Type :=
| Threw (r : reason)
| Returned (b : bridge).

(** A call of [workerToPromise]: the calls it made to the [Worker]
    constructor (program text and options), and how it ended. *)
Record invocation : Type := mkInvocation {
  Worker_calls : list (string * gmap string value);
  outcome : completion
}.

(** [workerToPromise(func, payload, dependencies = [], workerProps = {})];
    an argument that is [undefined] is [None]. *)
Definition workerToPromise (func : option JsFunction) (payload : value)
    (dependencies : option (list Dependency))
    (workerProps : option (gmap string value)) : invocation :=
  let dependencies := default [] dependencies in
  let workerProps := default ∅ workerProps in
  match buildWorkerScript (TypeError_reading host) func dependencies with
  | Throw e =>
      (* [buildWorkerScript] is called before the [try] is entered *)
      {| Worker_calls := []; outcome := Threw (RawError e) |}
  | Ok script =>
      let '(calls, body) := executor script payload workerProps in
      {| Worker_calls := calls;
         outcome :=
           match new_Promise script body with
           | Ok b => Returned b                              (* [try { return ... }] *)
           | Throw e =>                                      (* [catch (e)] *)
               Threw (Wrapped (new_WorkerError (VStr (err_message e))
                                               (VStr (err_stack e)) script))
           end |}
  end.
End Bridge.

(* ===================================================================== *)
(** ** An executable host                                                  *)
(* ===================================================================== *)

(** A JSON codec for the values above (integers only, no [\u] escapes),
    written after ECMA-404.  It serves to run the model; the theorems below
    are stated for an arbitrary [Host]. *)
Module Json.

Definition dquote : ascii := "034"%char.
Definition backslash : ascii := "092"%char.

Fixpoint escape_chars (s : string) : string :=
  match s with
  | EmptyString => EmptyString
  | String c s' =>
      if Ascii.eqb c dquote || Ascii.eqb c backslash
      then String backslash (String c (escape_chars s'))
      else if Ascii.eqb c JsString.newline
      then String backslash (String "n" (escape_chars s'))
      else if Ascii.eqb c "009"
      then String backslash (String "t" (escape_chars s'))
      else if Ascii.eqb c "013"
      then String backslash (String "r" (escape_chars s'))
      else String c (escape_chars s')
  end.

Definition quote (s : string) : string :=
  String dquote (escape_chars s +:+ String dquote EmptyString).

(** [JSON.stringify]: [undefined] has no text, is [null] inside an array and
    is left out of an object. *)
Fixpoint stringify (v : value) : option string :=
  match v with
  | VUndefined => None
  | VNull => Some "null"
  | VBool true => Some "true"
  | VBool false => Some "false"
  | VNum n => Some (JsString.of_Z n)
  | VStr s => Some (quote s)
  | VArr items =>
      Some ("[" +:+
            JsString.join "," (map (fun x => default "null" (stringify x)) items) +:+
            "]")
  | VObj props =>
      Some ("{" +:+
            JsString.join ","
              (flat_map (fun '(k, x) =>
                           match stringify x with
                           | Some text => [quote k +:+ ":" +:+ text]
                           | None => []
                           end) props) +:+
            "}")
  end.

(** JSON white space: tab, line feed, carriage return, space. *)
Fixpoint skip (s : string) : string :=
  match s with
  | String ("009" | "010" | "013" | " ")%char s' => skip s'
  | _ => s
  end.

Definition is_digit (c : ascii) : bool :=
  match Ascii.is_nat c with
  | Some _ => true
  | None => false
  end.

Fixpoint parse_digits (acc : Z) (s : string) : Z * string :=
  match s with
  | EmptyString => (acc, s)
  | String c s' =>
      match Ascii.is_nat c with
      | Some d => parse_digits (10 * acc + Z.of_nat d) s'
      | None => (acc, s)
      end
  end.

(** An integer literal: no leading zero, no fraction, no exponent. *)
Definition parse_number (s : string) : option (Z * string) :=
  match s with
  | String "0" r =>
      match r with
      | String c _ => if is_digit c then None else Some (0%Z, r)
      | EmptyString => Some (0%Z, r)
      end
  | String c _ => if is_digit c then Some (parse_digits 0 s) else None
  | EmptyString => None
  end.

(** The characters of a string literal after its opening quote. *)
Fixpoint parse_chars (s : string) : option (string * string) :=
  match s with
  | EmptyString => None
  | String c s' =>
      if Ascii.eqb c dquote then Some (EmptyString, s')
      else if Ascii.eqb c backslash then
        match s' with
        | String e s'' =>
            let unescaped :=
              if Ascii.eqb e dquote then Some dquote
              else if Ascii.eqb e backslash then Some backslash
              else if Ascii.eqb e "/" then Some "/"%char
              else if Ascii.eqb e "n" then Some JsString.newline
              else if Ascii.eqb e "t" then Some "009"%char
              else if Ascii.eqb e "r" then Some "013"%char
              else None in
            match unescaped with
            | Some u => '(text, rest) ← parse_chars s''; Some (String u text, rest)
            | None => None
            end
        | EmptyString => None
        end
      else if Nat.ltb (nat_of_ascii c) 32 then None
      else '(text, rest) ← parse_chars s'; Some (String c text, rest)
  end.

Fixpoint parse_value (fuel : nat) (s : string) : option (value * string) :=
  match fuel with
  | 0 => None
  | S fuel =>
      match skip s with
      | String "[" r =>
          match skip r with
          | String "]" rest => Some (VArr [], rest)
          | _ => '(items, rest) ← parse_elements fuel r; Some (VArr items, rest)
          end
      | String "{" r =>
          match skip r with
          | String "}" rest => Some (VObj [], rest)
          | _ => '(props, rest) ← parse_members fuel r; Some (VObj props, rest)
          end
      | String "-" r => '(n, rest) ← parse_number r; Some (VNum (- n), rest)
      | String c r as text =>
          if Ascii.eqb c dquote
          then '(str, rest) ← parse_chars r; Some (VStr str, rest)
          else if is_digit c
          then '(n, rest) ← parse_number text; Some (VNum n, rest)
          else match JsString.strip_prefix "null" text,
                     JsString.strip_prefix "true" text,
                     JsString.strip_prefix "false" text with
               | Some rest, _, _ => Some (VNull, rest)
               | _, Some rest, _ => Some (VBool true, rest)
               | _, _, Some rest => Some (VBool false, rest)
               | _, _, _ => None
               end
      | EmptyString => None
      end
  end
with parse_elements (fuel : nat) (s : string) : option (list value * string) :=
  match fuel with
  | 0 => None
  | S fuel =>
      '(v, r) ← parse_value fuel s;
      match skip r with
      | String "," r' => '(vs, rest) ← parse_elements fuel r'; Some (v :: vs, rest)
      | String "]" rest => Some ([v], rest)
      | _ => None
      end
  end
with parse_members (fuel : nat) (s : string)
  : option (list (string * value) * string) :=
  match fuel with
  | 0 => None
  | S fuel =>
      match skip s with
      | String c r =>
          if Ascii.eqb c dquote then
            '(k, r) ← parse_chars r;
            match skip r with
            | String ":" r =>
                '(v, r) ← parse_value fuel r;
                match skip r with
                | String "," r' =>
                    '(ms, rest) ← parse_members fuel r'; Some ((k, v) :: ms, rest)
                | String "}" rest => Some ([(k, v)], rest)
                | _ => None
                end
            | _ => None
            end
          else None
      | EmptyString => None
      end
  end.

Definition SyntaxError (text : string) : Error :=
  {| err_message := "Unexpected token in JSON: " +:+ text;
     err_stack := "SyntaxError: Unexpected token in JSON: " +:+ text +:+
                  JsString.nl +:+ "    at JSON.parse (<anonymous>)" |}.

(** [JSON.parse]: one value, white space around it, nothing else. *)
Definition parse (text : string) : result value :=
  match parse_value (2 * String.length text + 2) text with
  | Some (v, rest) =>
      match skip rest with
      | EmptyString => Ok v
      | _ => Throw (SyntaxError text)
      end
  | None => Throw (SyntaxError text)
  end.

End Json.

Definition TypeError (property : string) : Error :=
  {| err_message :=
       "Cannot read properties of undefined (reading '" +:+ property +:+ "')";
     err_stack :=
       "TypeError: Cannot read properties of undefined (reading '" +:+ property +:+ "')" |}.

(** The text of a synthesis that succeeded. *)
Definition program_text (r : result string) : string :=
  match r with
  | Ok text => text
  | Throw _ => EmptyString
  end.


(** A host on which every worker starts. *)
Definition reference_host : Host :=
  {| JSON_parse := Json.parse;
     JSON_stringify := Json.stringify;
     TypeError_reading := TypeError;
     Worker_constructor := fun _ _ => None |}.

(** A host whose [Worker] constructor throws. *)
Definition failing_host (e : Error) : Host :=
  {| JSON_parse := Json.parse;
     JSON_stringify := Json.stringify;
     TypeError_reading := TypeError;
     Worker_constructor := fun _ _ => Some e |}.

(* ===================================================================== *)
(** ** Settlement of the promise, in the words of the specification        *)
(* ===================================================================== *)

Definition is_settled (s : settlement) : bool :=
  match s with
  | Pending => false
  | _ => true
  end.



(** The settlement a listener asks for, [Pending] when it asks for none. *)
Definition settlement_of (a : result action) : settlement :=
  match a with
  | Ok (Resolve v) => Fulfilled v
  | Ok (Reject w) => Rejected (Wrapped w)
  | Ok Nothing => Pending
  | Throw _ => Pending
  end.




(** The call rejected its promise with a [WorkerError]. *)
Definition rejected_with_WorkerError (i : invocation) : Prop :=
  exists b w, outcome i = Returned b /\ promise b = Rejected (Wrapped w).

(* ===================================================================== *)
(** ** The statements a declaration contributes, in the words of the
       specification                                                       *)
(* ===================================================================== *)

(** One statement for [namedExports] when the list is not empty. *)
Definition named_exports_part (d : Dependency) : list string :=
  match dep_exports d with
  | Some (_ :: _) => [exports_statement d]
  | _ => []
  end.

(** One statement for the default binding when a name is there. *)
Definition default_binding_part (d : Dependency) : list string :=
  match dep_default d with
  | Some (String _ _) => [default_statement d]
  | _ => []
  end.

Definition binding_statements (d : Dependency) : list string :=
  named_exports_part d ++ default_binding_part d.

(* ===================================================================== *)
(** ** Characters of a text                                               *)
(* ===================================================================== *)

(** [occurs c s]: the character [c] occurs in [s]. *)
Fixpoint occurs (c : ascii) (s : string) : bool :=
  match s with
  | EmptyString => false
  | String a s' => Ascii.eqb a c || occurs c s'
  end.

(* ===================================================================== *)
(** ** The parts of the program text                                       *)
(* ===================================================================== *)

(** The text of the template between the dependency statements and the
    function placeholder (without the line break that follows the
    statements). *)
Definition harness_head : string :=
  "        const { parentPort, workerData } = require('node:worker_threads');" +:+
  JsString.nl +:+
  "        function __workerScript() {" +:+ JsString.nl +:+
  "  ".

(** The text between the line of the function placeholder and the name
    placeholder. *)
Definition harness_call : string := "  const unknownResult = ".

(** The text after the name placeholder. *)
Definition harness_tail : string :=
  JsString.join JsString.nl [
    "(workerData)";
    "  Promise.resolve(unknownResult)";
    "    .then((data) => {";
    "      parentPort.postMessage(`res:${JSON.stringify(data)}`)";
    "    })";
    "    .catch((err) => {";
    "      parentPort.postMessage(`err:${JSON.stringify({message: err.message, stack: err.stack})}`)";
    "    })";
    "}";
    "        ;";
    "        __workerScript();";
    "        " ].

(** The program text in the order the specification gives: the dependency
    statements, the import of the messaging primitives, the harness with
    the function's definition in it and the call of the function by its
    name, and the call of the harness. *)
Definition assembled_script (bindings definition name : string) : string :=
  JsString.nl +:+ "        " +:+ bindings +:+ JsString.nl +:+
  harness_head +:+ definition +:+ JsString.nl +:+
  harness_call +:+ name +:+ harness_tail.

(** No outbound message among the events. *)
Fixpoint no_message (evs : list event) : bool :=
  match evs with
  | [] => true
  | ErrorSignal _ :: rest => no_message rest
  | Message _ :: _ => false
  end.



(* ===================================================================== *)
(** ** The built-ins on small inputs                                      *)
(* ===================================================================== *)

Example substring_tag : JsString.substring 0 3 "res:42" = "res".
Proof. reflexivity. Qed.
Example substring_body : JsString.substring_from 4 "res:42" = "42".
Proof. reflexivity. Qed.
Example substring_short : JsString.substring_from 4 "ab" = "".
Proof. reflexivity. Qed.
Example split_trailing : JsString.split JsString.newline ("a" +:+ JsString.nl) = ["a"; ""].
Proof. reflexivity. Qed.
Example replace_first : JsString.replace "ab" "X$&$$" "zabab" = "zXab$ab".
Proof. reflexivity. Qed.
Example of_nat_12 : JsString.of_nat 12 = "12".
Proof. reflexivity. Qed.
Example of_Z_neg : JsString.of_Z (-7) = "-7".
Proof. reflexivity. Qed.
Example trim_both : JsString.trim ("  a b " +:+ JsString.nl) = "a b".
Proof. reflexivity. Qed.
Example number_lines_two :
  number_lines ("a" +:+ JsString.nl +:+ "b") = "1: a" +:+ JsString.nl +:+ "2: b".
Proof. reflexivity. Qed.

(* ===================================================================== *)
(** ** Dependency declarations                                             *)
(* ===================================================================== *)

Section DependencyStrings.

Lemma push_dependency_spec (acc : list string) (d : Dependency) :
  push_dependency acc d = acc ++ binding_statements d.
Proof.
  unfold push_dependency, binding_statements, named_exports_part,
    default_binding_part, has_exports, has_default.
  destruct (dep_exports d) as [[|n ns]|], (dep_default d) as [[|c s]|]; simpl;
    rewrite <- ?app_assoc, ?app_nil_r; reflexivity.
Qed.

Lemma fold_push_dependency (deps : list Dependency) (acc : list string) :
  fold_left push_dependency deps acc = acc ++ flat_map binding_statements deps.
Proof.
  revert acc. induction deps as [|d deps IH]; intros acc; simpl.
  - now rewrite app_nil_r.
  - rewrite IH, push_dependency_spec, <- app_assoc. reflexivity.
Qed.

Lemma depStrings_flat_map (deps : list Dependency) :
  depStrings deps = flat_map binding_statements deps.
Proof. unfold depStrings. now rewrite fold_push_dependency. Qed.

Lemma flat_map_binding_app (l1 l2 : list Dependency) :
  flat_map binding_statements (l1 ++ l2) =
  flat_map binding_statements l1 ++ flat_map binding_statements l2.
Proof.
  induction l1 as [|d l1 IH]; simpl; [reflexivity|].
  now rewrite IH, app_assoc.
Qed.

(** C5.  The statements are emitted declaration by declaration, in the
    order of the list; within a declaration the named-exports statement
    (present only for a non-empty [exports]) precedes the default-binding
    statement (present only for a [default] that is there); a declaration
    with neither adds nothing wherever it stands in the list, and the
    function has a result on every list. *)
Theorem createDependencyStrings_declaration_order :
  forall (dependencies before after : list Dependency) (source : option string),
    createDependencyStrings dependencies =
      JsString.join JsString.nl (flat_map binding_statements dependencies)
    /\ depStrings (before ++ after) = depStrings before ++ depStrings after
    /\ (forall d, depStrings [d] = named_exports_part d ++ default_binding_part d)
    /\ (forall d, named_exports_part d = [] \/
                  (named_exports_part d = [exports_statement d] /\
                   exists n ns, dep_exports d = Some (n :: ns)))
    /\ (forall d, default_binding_part d = [] \/
                  (default_binding_part d = [default_statement d] /\
                   exists name, dep_default d = Some name))
    /\ createDependencyStrings (before ++ mkDependency source None None :: after) =
       createDependencyStrings (before ++ after)
    /\ createDependencyStrings (before ++ mkDependency source (Some []) None :: after) =
       createDependencyStrings (before ++ after).
Proof.
  intros deps l1 l2 source.
  split; [unfold createDependencyStrings; now rewrite depStrings_flat_map|].
  split; [rewrite !depStrings_flat_map; apply flat_map_binding_app|].
  split; [intros d; rewrite depStrings_flat_map; simpl; now rewrite app_nil_r|].
  split.
  { intros d. unfold named_exports_part.
    destruct (dep_exports d) as [[|n ns]|]; eauto. }
  split.
  { intros d. unfold default_binding_part.
    destruct (dep_default d) as [[|c s]|]; eauto. }
  unfold createDependencyStrings.
  rewrite !depStrings_flat_map, !flat_map_binding_app. simpl. split; reflexivity.
Qed.

End DependencyStrings.

Example dependency_strings_lodash :
  createDependencyStrings
    [mkDependency (Some "lodash") (Some ["join"]) (Some "_")] =
  "const {join} = require('lodash');" +:+ JsString.nl +:+
  "const _ = require('lodash');".
Proof. reflexivity. Qed.

Example dependency_strings_empty_default :
  createDependencyStrings [mkDependency (Some "lodash") None (Some "")] = "".
Proof. reflexivity. Qed.

(* ===================================================================== *)
(** ** Lines of a text                                                     *)
(* ===================================================================== *)

Section Lines.

Lemma occurs_app (c : ascii) (s t : string) :
  occurs c (s +:+ t) = occurs c s || occurs c t.
Proof.
  induction s as [|a s IH]; simpl; [reflexivity|].
  change (String a s +:+ t) with (String a (s +:+ t)). simpl.
  now rewrite IH, orb_assoc.
Qed.

Lemma split_not_nil (c : ascii) (s : string) : JsString.split c s <> [].
Proof.
  induction s as [|a s IH]; simpl; [discriminate|].
  destruct (Ascii.eqb a c); [discriminate|].
  destruct (JsString.split c s); discriminate.
Qed.

Lemma split_free (c : ascii) (s : string) :
  Forall (fun line => occurs c line = false) (JsString.split c s).
Proof.
  induction s as [|a s IH]; simpl.
  - repeat constructor.
  - destruct (Ascii.eqb a c) eqn:E.
    + constructor; [reflexivity|assumption].
    + destruct (JsString.split c s) as [|h t].
      * constructor; [simpl; now rewrite E|constructor].
      * inversion IH; subst. constructor; [simpl; now rewrite E|assumption].
Qed.

Lemma split_id (c : ascii) (s : string) :
  occurs c s = false -> JsString.split c s = [s].
Proof.
  induction s as [|a s IH]; simpl; [reflexivity|].
  intros H. apply orb_false_iff in H as [Ha Hs].
  rewrite Ha, (IH Hs). reflexivity.
Qed.

Lemma split_app_sep (c : ascii) (s rest : string) :
  occurs c s = false ->
  JsString.split c (s +:+ String c rest) = s :: JsString.split c rest.
Proof.
  induction s as [|a s IH]; intros H.
  - change (EmptyString +:+ String c rest) with (String c rest).
    simpl. now rewrite Ascii.eqb_refl.
  - simpl in H. apply orb_false_iff in H as [Ha Hs].
    change (String a s +:+ String c rest) with (String a (s +:+ String c rest)).
    simpl. rewrite Ha, (IH Hs). reflexivity.
Qed.

(** Splitting a text that was joined from separator-free lines gives the
    lines back. *)
Lemma split_join (c : ascii) (lines : list string) :
  lines <> [] ->
  Forall (fun line => occurs c line = false) lines ->
  JsString.split c (JsString.join (String c EmptyString) lines) = lines.
Proof.
  induction lines as [|x rest IH]; intros Hne Hfree; [congruence|].
  inversion Hfree as [|? ? Hx Hrest]; subst.
  destruct rest as [|y rest'].
  - simpl. now apply split_id.
  - change (JsString.join (String c EmptyString) (x :: y :: rest'))
      with (x +:+ String c EmptyString +:+ JsString.join (String c EmptyString) (y :: rest')).
    change (String c EmptyString +:+ JsString.join (String c EmptyString) (y :: rest'))
      with (String c (JsString.join (String c EmptyString) (y :: rest'))).
    rewrite split_app_sep by assumption.
    rewrite IH; [reflexivity|discriminate|assumption].
Qed.

Lemma uint_free_of_newline (u : Decimal.uint) :
  occurs JsString.newline (NilEmpty.string_of_uint u) = false.
Proof. induction u as [| u IH | u IH | u IH | u IH | u IH | u IH | u IH | u IH | u IH | u IH]; simpl; [reflexivity | idtac ..]; exact IH. Qed.

Lemma of_nat_free_of_newline (n : nat) :
  occurs JsString.newline (JsString.of_nat n) = false.
Proof. apply uint_free_of_newline. Qed.

Lemma map_indexed_imap (k : nat) (lines : list string) :
  map_indexed k lines =
  imap (fun i line => JsString.of_nat (k + i + 1) +:+ ": " +:+ line) lines.
Proof.
  revert k. induction lines as [|l lines IH]; intros k; simpl; [reflexivity|].
  rewrite Nat.add_0_r. f_equal. rewrite IH.
  apply imap_ext. intros i x _. unfold compose.
  do 2 f_equal. lia.
Qed.

Lemma map_indexed_not_nil (k : nat) (lines : list string) :
  lines <> [] -> map_indexed k lines <> [].
Proof. destruct lines; [congruence|discriminate]. Qed.

Lemma map_indexed_free (k : nat) (lines : list string) :
  Forall (fun line => occurs JsString.newline line = false) lines ->
  Forall (fun line => occurs JsString.newline line = false) (map_indexed k lines).
Proof.
  intros H. revert k. induction H as [|l lines Hl _ IH]; intros k; simpl;
    constructor; [|apply IH].
  rewrite !occurs_app, of_nat_free_of_newline, Hl. reflexivity.
Qed.

(** The dump has the lines of the code, each behind its number. *)
Lemma lines_of_number_lines (code : string) :
  JsString.split JsString.newline (number_lines code) =
  imap (fun i line => JsString.of_nat (i + 1) +:+ ": " +:+ line)
       (JsString.split JsString.newline code).
Proof.
  unfold number_lines, JsString.nl.
  rewrite split_join.
  - apply map_indexed_imap.
  - apply map_indexed_not_nil, split_not_nil.
  - apply map_indexed_free, split_free.
Qed.

End Lines.

(* ===================================================================== *)
(** ** WorkerError                                                         *)
(* ===================================================================== *)

(** C7 (amended).  For strings [msg], [stk] and [code], the error built by
    [new WorkerError(msg, stk, code)] has [message = msg]; its
    [generatedCode] has the lines of [code], the line at index [i] behind
    the decimal number [i + 1] and [": "]; and its [stack] is [stk], then a
    fixed banner, then the dump with the white space at both ends trimmed,
    then a line break and four spaces. *)
Theorem WorkerError_fields (msg stk code : string) :
  let w := new_WorkerError (VStr msg) (VStr stk) code in
  message w = msg
  /\ JsString.split JsString.newline (generatedCode w) =
     imap (fun i line => JsString.of_nat (i + 1) +:+ ": " +:+ line)
          (JsString.split JsString.newline code)
  /\ stack w =
     stk +:+ stack_banner +:+ JsString.trim (generatedCode w) +:+ stack_trailer.
Proof.
  simpl. split; [reflexivity|]. split; [apply lines_of_number_lines|reflexivity].
Qed.

(** C7 as stated fails: the stack is not the originating stack directly
    followed by the dump. *)
Lemma WorkerError_stack_not_plain_concatenation :
  let w := new_WorkerError (VStr "boom") (VStr "Error: boom") "f()" in
  generatedCode w = "1: f()"
  /\ stack w <> "Error: boom" +:+ generatedCode w
  /\ stack w =
     "Error: boom" +:+ JsString.nl +:+
     "    " +:+ JsString.nl +:+
     "    " +:+ JsString.nl +:+
     "    ========== GENERATED CODE ===============" +:+ JsString.nl +:+
     JsString.nl +:+
     "    1: f()" +:+ JsString.nl +:+
     "    ".
Proof.
  cbv zeta. split; [reflexivity|]. split; [|reflexivity].
  intros H. vm_compute in H. discriminate H.
Qed.

(* ===================================================================== *)
(** ** The synthesizer                                                     *)
(* ===================================================================== *)





(* ===================================================================== *)
(** ** The call of workerToPromise                                         *)
(* ===================================================================== *)



(* ===================================================================== *)
(** ** The bridge as a state machine                                       *)
(* ===================================================================== *)

Section BridgeFacts.
Variable host : Host.

Lemma settle_settled (s : settlement) (b : bridge) :
  is_settled (promise b) = true -> settle s b = b.
Proof. unfold settle. destruct (promise b); [discriminate|reflexivity..]. Qed.

Lemma promise_settle (s : settlement) (b : bridge) :
  promise (settle s b) = match promise b with Pending => s | p => p end.
Proof. unfold settle. destruct (promise b) eqn:E; simpl; congruence. Qed.

Lemma promise_perform (a : result action) (b : bridge) :
  promise (perform a b) =
  match promise b with Pending => settlement_of a | p => p end.
Proof.
  destruct a as [[v|w|]|e]; simpl; rewrite ?promise_settle;
    destruct (promise b); reflexivity.
Qed.

Lemma script_perform (a : result action) (b : bridge) :
  script (perform a b) = script b.
Proof.
  destruct a as [[v|w|]|e]; simpl; unfold settle; try destruct (promise b);
    reflexivity.
Qed.

Lemma error_listener_perform (a : result action) (b : bridge) :
  error_listener (perform a b) = error_listener b.
Proof.
  destruct a as [[v|w|]|e]; simpl; unfold settle; try destruct (promise b);
    reflexivity.
Qed.

Lemma message_listener_perform (a : result action) (b : bridge) :
  message_listener (perform a b) = message_listener b.
Proof.
  destruct a as [[v|w|]|e]; simpl; unfold settle; try destruct (promise b);
    reflexivity.
Qed.

Lemma script_deliver (b : bridge) (ev : event) :
  script (deliver host b ev) = script b.
Proof.
  destruct ev; unfold deliver.
  - destruct (error_listener b); [apply script_perform|reflexivity].
  - destruct (message_listener b); [now rewrite script_perform|reflexivity].
Qed.

Lemma error_listener_deliver (b : bridge) (ev : event) :
  error_listener (deliver host b ev) = error_listener b.
Proof.
  destruct ev; unfold deliver.
  - destruct (error_listener b) eqn:E; [now rewrite error_listener_perform|assumption].
  - destruct (message_listener b); [now rewrite error_listener_perform|reflexivity].
Qed.

(** A settled promise keeps its state whatever arrives. *)
Lemma promise_deliver_settled (b : bridge) (ev : event) :
  is_settled (promise b) = true -> promise (deliver host b ev) = promise b.
Proof.
  intros H. destruct ev; unfold deliver.
  - destruct (error_listener b); [|reflexivity].
    rewrite promise_perform. destruct (promise b); [discriminate|reflexivity..].
  - destruct (message_listener b); [|reflexivity].
    rewrite promise_perform. simpl. destruct (promise b); [discriminate|reflexivity..].
Qed.

Lemma promise_deliver_all_settled (evs : list event) (b : bridge) :
  is_settled (promise b) = true -> promise (deliver_all host b evs) = promise b.
Proof.
  revert b. induction evs as [|ev evs IH]; intros b H; [reflexivity|].
  simpl. rewrite IH; rewrite promise_deliver_settled; auto.
Qed.

(** After a message was delivered the message listener is gone. *)
Lemma message_listener_after_message (b : bridge) (m : string) :
  message_listener (deliver host b (Message m)) = false.
Proof.
  unfold deliver. destruct (message_listener b) eqn:E; [|assumption].
  now rewrite message_listener_perform.
Qed.









End BridgeFacts.

(* ===================================================================== *)
(** ** Failures of the synthesizer                                         *)
(* ===================================================================== *)

(** C1 (amended).  A failure raised while the program text is synthesized
    is not caught: [workerToPromise] throws the host error as it is, builds
    no [WorkerError], returns no promise and calls the [Worker] constructor
    not at all. *)
Theorem synthesis_failure_propagates (host : Host) (func : option JsFunction)
    (payload : value) (dependencies : option (list Dependency))
    (workerProps : option (gmap string value)) (e : Error) :
  buildWorkerScript (TypeError_reading host) func (default [] dependencies) = Throw e ->
  workerToPromise host func payload dependencies workerProps =
  {| Worker_calls := []; outcome := Threw (RawError e) |}.
Proof. intros H. unfold workerToPromise. now rewrite H. Qed.

Lemma synthesis_failure_propagates_witness :
  workerToPromise reference_host None (VNum 1) None None =
  {| Worker_calls := []; outcome := Threw (RawError (TypeError "name")) |}.
Proof.
  apply (synthesis_failure_propagates reference_host None (VNum 1) None None).
  reflexivity.
Defined.

(** C1 as stated fails: with [undefined] for the function the synthesizer
    throws, and the call neither returns a rejected promise nor throws a
    [WorkerError]. *)
Lemma synthesis_failure_is_not_wrapped :
  buildWorkerScript TypeError None [] = Throw (TypeError "name")
  /\ outcome (workerToPromise reference_host None (VNum 1) None None) =
     Threw (RawError (TypeError "name"))
  /\ ~ rejected_with_WorkerError (workerToPromise reference_host None (VNum 1) None None).
Proof.
  split; [reflexivity|]. split; [reflexivity|].
  intros (b & w & Hret & _). discriminate Hret.
Qed.

(* ===================================================================== *)
(** ** What the caller can catch                                           *)
(* ===================================================================== *)




(** The same holds for an exception of the [Worker] constructor: it
    rejects the promise as it is, and the [catch] clause is never entered. *)
Example constructor_failure_rejects_raw (e : Error) :
  outcome (workerToPromise (failing_host e) (Some (mkFunction "f" "(p) => p"))
             (VNum 1) None None) =
  Returned (rejected_with
              (program_text (buildWorkerScript TypeError
                               (Some (mkFunction "f" "(p) => p")) []))
              (RawError e)).
Proof. reflexivity. Qed.

Lemma workerToPromise_never_throws_WorkerError (host : Host)
    (func : option JsFunction) (payload : value)
    (dependencies : option (list Dependency))
    (workerProps : option (gmap string value)) (w : WorkerError) :
  outcome (workerToPromise host func payload dependencies workerProps) <>
  Threw (Wrapped w).
Proof.
  unfold workerToPromise.
  destruct (buildWorkerScript _ func _) as [text|e]; simpl; [|discriminate].
  destruct (Worker_constructor host _ _); discriminate.
Qed.

(** When the synthesizer and the [Worker] constructor return, the call
    returns a pending promise with both listeners registered. *)
Lemma workerToPromise_returns_listening (host : Host) (func : option JsFunction)
    (payload : value) (dependencies : option (list Dependency))
    (workerProps : option (gmap string value)) (text : string) :
  buildWorkerScript (TypeError_reading host) func (default [] dependencies) = Ok text ->
  Worker_constructor host text (worker_options (default ∅ workerProps) payload) = None ->
  outcome (workerToPromise host func payload dependencies workerProps) =
  Returned (listening text).
Proof.
  intros Hbuild Hctor. unfold workerToPromise. rewrite Hbuild. simpl.
  now rewrite Hctor.
Qed.

(* ===================================================================== *)
(** ** Settlement                                                          *)
(* ===================================================================== *)



(* ===================================================================== *)
(** ** Messages of the harness                                             *)
(* ===================================================================== *)

Lemma tag_of_res (text : string) : JsString.substring 0 3 ("res:" +:+ text) = "res".
Proof. reflexivity. Qed.

Lemma tag_of_err (text : string) : JsString.substring 0 3 ("err:" +:+ text) = "err".
Proof. reflexivity. Qed.

Lemma body_of_res (text : string) : JsString.substring_from 4 ("res:" +:+ text) = text.
Proof. reflexivity. Qed.

Lemma body_of_err (text : string) : JsString.substring_from 4 ("err:" +:+ text) = text.
Proof. reflexivity. Qed.

(** What the harness posts for a function that returns [undefined]. *)
Lemma harness_then_undefined (host : Host) :
  JSON_stringify host VUndefined = None ->
  harness_then host VUndefined = "res:undefined".
Proof. intros H. unfold harness_then. now rewrite H. Qed.



(* ===================================================================== *)
(** ** Messages that settle nothing                                        *)
(* ===================================================================== *)









(* ===================================================================== *)
(** ** The scenarios of the test file                                      *)
(* ===================================================================== *)

Example simple_function_resolves :
  exists b,
    outcome (workerToPromise reference_host
               (Some (mkFunction "workerFunc" "(payload) => { return payload.a * payload.b }"))
               (VObj [("a", VNum 2); ("b", VNum 4)]) (Some []) (Some ∅)) = Returned b
    /\ promise b = Pending
    /\ promise (deliver_all reference_host b
                  [Message (harness_then reference_host (VNum 8))]) = Fulfilled (VNum 8).
Proof. eexists. split; [reflexivity|]. split; reflexivity. Qed.

Example thrown_error_rejects :
  exists posted,
    harness_catch reference_host
      (VObj [("message", VStr "Test Error"); ("stack", VStr "Error: Test Error")]) =
      Ok posted
    /\ exists w,
         promise (deliver_all reference_host (listening "f()") [Message posted]) =
         Rejected (Wrapped w)
         /\ message w = "Test Error".
Proof. eexists. split; [reflexivity|]. eexists. split; reflexivity. Qed.

Example script_with_dependencies :
  buildWorkerScript TypeError
    (Some (mkFunction "workerFunc" "(payload) => { return join(_.uniq(payload), '~') }"))
    [mkDependency (Some "lodash") (Some ["join"]) (Some "_")] =
  Ok (JsString.join JsString.nl [
    "";
    "        const {join} = require('lodash');";
    "const _ = require('lodash');";
    "        const { parentPort, workerData } = require('node:worker_threads');";
    "        function __workerScript() {";
    "  const workerFunc = (payload) => { return join(_.uniq(payload), '~') }";
    "  const unknownResult = workerFunc(workerData)";
    "  Promise.resolve(unknownResult)";
    "    .then((data) => {";
    "      parentPort.postMessage(`res:${JSON.stringify(data)}`)";
    "    })";
    "    .catch((err) => {";
    "      parentPort.postMessage(`err:${JSON.stringify({message: err.message, stack: err.stack})}`)";
    "    })";
    "}";
    "        ;";
    "        __workerScript();";
    "        " ]).
Proof. reflexivity. Qed.

(* ===================================================================== *)
(** ** Searching and replacing in a text                                  *)
(* ===================================================================== *)

Section Text.

Lemma append_assoc (a b c : string) : (a +:+ b) +:+ c = a +:+ (b +:+ c).
Proof.
  induction a as [|x a IH]; [reflexivity|].
  change (String x a +:+ b) with (String x (a +:+ b)).
  change (String x (a +:+ b) +:+ c) with (String x ((a +:+ b) +:+ c)).
  now rewrite IH.
Qed.

Lemma strip_prefix_app_none (pat x : string) (c : ascii) (y : string) :
  occurs c pat = false ->
  JsString.strip_prefix pat x = None ->
  JsString.strip_prefix pat (x +:+ String c y) = None.
Proof.
  revert x. induction pat as [|a pat IH]; intros x Hc Hx; [discriminate|].
  simpl in Hc. apply orb_false_iff in Hc as [Hac Hpat].
  destruct x as [|b x].
  - change (EmptyString +:+ String c y) with (String c y). simpl. now rewrite Hac.
  - change (String b x +:+ String c y) with (String b (x +:+ String c y)).
    simpl in *. destruct (Ascii.eqb a b); [auto|reflexivity].
Qed.

Lemma find_first_nil (pat : string) :
  JsString.find_first pat EmptyString = None -> JsString.strip_prefix pat EmptyString = None.
Proof. simpl. destruct (JsString.strip_prefix pat EmptyString); [discriminate|reflexivity]. Qed.

(** A search that finds nothing in [x] goes on behind a character that the
    pattern does not contain. *)
Lemma find_first_skip (pat x : string) (c : ascii) (y : string) :
  occurs c pat = false ->
  JsString.find_first pat x = None ->
  JsString.find_first pat (x +:+ String c y) =
  match JsString.find_first pat y with
  | Some (p, q) => Some (x +:+ String c p, q)
  | None => None
  end.
Proof.
  intros Hc. induction x as [|b x IH]; intros Hx.
  - change (EmptyString +:+ String c y) with (String c y).
    apply find_first_nil in Hx.
    pose proof (strip_prefix_app_none pat EmptyString c y Hc Hx) as H.
    change (EmptyString +:+ String c y) with (String c y) in H.
    simpl. rewrite H.
    destruct (JsString.find_first pat y) as [[p q]|]; reflexivity.
  - simpl in Hx.
    destruct (JsString.strip_prefix pat (String b x)) eqn:Hs; [discriminate|].
    destruct (JsString.find_first pat x) as [[p q]|] eqn:Hf; [discriminate|].
    pose proof (strip_prefix_app_none pat (String b x) c y Hc Hs) as H.
    change (String b x +:+ String c y) with (String b (x +:+ String c y)) in *.
    simpl. rewrite H, (IH eq_refl).
    destruct (JsString.find_first pat y) as [[p q]|]; reflexivity.
Qed.

(** A search for a pattern goes on behind a text without the pattern's
    first character. *)
Lemma find_first_skip_left (a : ascii) (pat x y : string) :
  occurs a x = false ->
  JsString.find_first (String a pat) (x +:+ y) =
  match JsString.find_first (String a pat) y with
  | Some (p, q) => Some (x +:+ p, q)
  | None => None
  end.
Proof.
  induction x as [|b x IH]; intros Hx.
  - change (EmptyString +:+ y) with y.
    destruct (JsString.find_first (String a pat) y) as [[p q]|]; reflexivity.
  - simpl in Hx. apply orb_false_iff in Hx as [Hb Hx].
    change (String b x +:+ y) with (String b (x +:+ y)).
    simpl. rewrite Ascii.eqb_sym, Hb, (IH Hx).
    destruct (JsString.find_first (String a pat) y) as [[p q]|]; reflexivity.
Qed.

Lemma get_substitution_cons (m b a : string) (c : ascii) (r : string) :
  Ascii.eqb c "$" = false ->
  JsString.get_substitution m b a (String c r) =
  String c (JsString.get_substitution m b a r).
Proof.
  intros Hc.
  destruct c as [[] [] [] [] [] [] [] []]; try reflexivity; discriminate Hc.
Qed.

(** A replacement text without a dollar stands for itself. *)
Lemma get_substitution_plain (m b a r1 r2 : string) :
  occurs "$" r1 = false ->
  JsString.get_substitution m b a (r1 +:+ r2) =
  r1 +:+ JsString.get_substitution m b a r2.
Proof.
  induction r1 as [|c r1 IH]; intros H; [reflexivity|].
  simpl in H. apply orb_false_iff in H as [Hc Hr].
  change (String c r1 +:+ r2) with (String c (r1 +:+ r2)).
  rewrite get_substitution_cons by assumption. now rewrite (IH Hr).
Qed.

End Text.

Section Shape.

Lemma append_nil_r (a : string) : a +:+ EmptyString = a.
Proof.
  induction a as [|x a IH]; [reflexivity|].
  change (String x a +:+ EmptyString) with (String x (a +:+ EmptyString)).
  now rewrite IH.
Qed.

Lemma append_cons (c : ascii) (a b : string) :
  String c a +:+ b = String c (a +:+ b).
Proof. reflexivity. Qed.

Lemma script_template_parts (deps : list Dependency) :
  script_template deps =
  (JsString.nl +:+ "        " +:+ createDependencyStrings deps) +:+
  String JsString.newline
    (harness_head +:+ placeholder_function +:+
     String JsString.newline (harness_call +:+ placeholder_name +:+ harness_tail)).
Proof.
  unfold script_template. rewrite !append_assoc. reflexivity.
Qed.

Lemma find_first_behind_indent (a : ascii) (pat text : string) :
  Ascii.eqb a " " = false -> Ascii.eqb a JsString.newline = false ->
  JsString.find_first (String a pat) text = None ->
  JsString.find_first (String a pat) (JsString.nl +:+ "        " +:+ text) = None.
Proof.
  intros Hsp Hnl H.
  rewrite <- append_assoc.
  rewrite find_first_skip_left, H; [reflexivity|].
  clear H. destruct a as [[] [] [] [] [] [] [] []];
    try reflexivity; discriminate.
Qed.

(** The two replacements on the template, for a function text
    [definition] that came out of the first one. *)
Lemma replace_placeholders (deps : list Dependency) (functionString definition name : string) :
  let bindings := createDependencyStrings deps in
  JsString.find_first placeholder_function bindings = None ->
  JsString.find_first placeholder_name bindings = None ->
  (forall before after,
     JsString.get_substitution placeholder_function before after functionString = definition) ->
  JsString.find_first placeholder_name definition = None ->
  occurs "$" name = false ->
  JsString.replace placeholder_name name
    (JsString.replace placeholder_function functionString (script_template deps)) =
  assembled_script bindings definition name.
Proof.
  intros bindings Hpf Hpn Hsub Hdef Hname.
  assert (Hfirst :
    JsString.replace placeholder_function functionString (script_template deps) =
    (JsString.nl +:+ "        " +:+ bindings) +:+
    String JsString.newline
      (harness_head +:+ definition +:+
       String JsString.newline (harness_call +:+ placeholder_name +:+ harness_tail))).
  { unfold JsString.replace. rewrite script_template_parts.
    rewrite find_first_skip; [|reflexivity|now apply find_first_behind_indent].
    replace (JsString.find_first placeholder_function _)
      with (Some (harness_head,
                  String JsString.newline (harness_call +:+ placeholder_name +:+ harness_tail)))
      by reflexivity.
    rewrite Hsub. rewrite !append_assoc. reflexivity. }
  rewrite Hfirst. unfold JsString.replace.
  rewrite find_first_skip; [|reflexivity|now apply find_first_behind_indent].
  replace (harness_head +:+ definition +:+
           String JsString.newline (harness_call +:+ placeholder_name +:+ harness_tail))
    with ("        const { parentPort, workerData } = require('node:worker_threads');" +:+
          String JsString.newline
            ("        function __workerScript() {" +:+
             String JsString.newline
               (("  " +:+ definition) +:+
                String JsString.newline
                  (harness_call +:+ placeholder_name +:+ harness_tail))))
    by (rewrite append_assoc; reflexivity).
  rewrite find_first_skip; [|reflexivity|reflexivity].
  rewrite find_first_skip; [|reflexivity|reflexivity].
  rewrite find_first_skip; [|reflexivity|].
  2: { unfold placeholder_name. rewrite find_first_skip_left by reflexivity.
       fold placeholder_name. now rewrite Hdef. }
  replace (JsString.find_first placeholder_name
             (harness_call +:+ placeholder_name +:+ harness_tail))
    with (Some (harness_call, harness_tail)) by reflexivity.
  rewrite <- (append_nil_r name) at 1.
  rewrite get_substitution_plain by assumption.
  unfold assembled_script. cbn [JsString.get_substitution].
  rewrite append_nil_r.
  repeat first [rewrite append_assoc | rewrite append_cons].
  reflexivity.
Qed.
End Shape.

(* ===================================================================== *)
(** ** The program text                                                    *)
(* ===================================================================== *)

Lemma function_text_plain (name source before after : string) :
  occurs "$" name = false -> occurs "$" source = false ->
  JsString.get_substitution placeholder_function before after
    ("const " +:+ name +:+ " = " +:+ source) =
  "const " +:+ name +:+ " = " +:+ source.
Proof.
  intros Hn Hs.
  rewrite <- (append_nil_r ("const " +:+ name +:+ " = " +:+ source)) at 1.
  rewrite get_substitution_plain; [apply append_nil_r|].
  rewrite !occurs_app, Hn, Hs. reflexivity.
Qed.

(** X1.  When neither placeholder text occurs in the dependency statements,
    the function's name and source hold no dollar sign and the function's
    definition does not hold the name placeholder, the program text is the
    template with [const <name> = <source>] in the place of the function
    placeholder and the name in the place of the name placeholder. *)
Theorem buildWorkerScript_assembles (TE : string -> Error) (f : JsFunction)
    (dependencies : list Dependency) :
  JsString.find_first placeholder_function (createDependencyStrings dependencies) = None ->
  JsString.find_first placeholder_name (createDependencyStrings dependencies) = None ->
  occurs "$" (fn_name f) = false ->
  occurs "$" (fn_source f) = false ->
  JsString.find_first placeholder_name
    ("const " +:+ fn_name f +:+ " = " +:+ fn_source f) = None ->
  buildWorkerScript TE (Some f) dependencies =
  Ok (assembled_script (createDependencyStrings dependencies)
        ("const " +:+ fn_name f +:+ " = " +:+ fn_source f) (fn_name f)).
Proof.
  intros Hpf Hpn Hname Hsource Hdef.
  unfold buildWorkerScript, getFunctionString. simpl. f_equal.
  apply replace_placeholders; auto.
  intros before after. now apply function_text_plain.
Qed.

Lemma buildWorkerScript_assembles_witness :
  buildWorkerScript TypeError
    (Some (mkFunction "workerFunc" "(payload) => { return join(_.uniq(payload), '~') }"))
    [mkDependency (Some "lodash") (Some ["join"]) (Some "_")] =
  Ok (assembled_script
        (createDependencyStrings [mkDependency (Some "lodash") (Some ["join"]) (Some "_")])
        ("const " +:+ "workerFunc" +:+ " = " +:+
         "(payload) => { return join(_.uniq(payload), '~') }")
        "workerFunc").
Proof.
  apply (buildWorkerScript_assembles TypeError
           (mkFunction "workerFunc" "(payload) => { return join(_.uniq(payload), '~') }"));
    reflexivity.
Defined.

(** X2.  The function's source is not copied as it is: [replace] reads it
    as a replacement pattern, so a [$$] in the source arrives in the
    program text as a single [$]. *)
Theorem dollar_dollar_collapses (TE : string -> Error) (name pre post : string)
    (dependencies : list Dependency) :
  JsString.find_first placeholder_function (createDependencyStrings dependencies) = None ->
  JsString.find_first placeholder_name (createDependencyStrings dependencies) = None ->
  occurs "$" name = false ->
  occurs "$" pre = false ->
  occurs "$" post = false ->
  JsString.find_first placeholder_name
    ("const " +:+ name +:+ " = " +:+ pre +:+ "$" +:+ post) = None ->
  buildWorkerScript TE (Some (mkFunction name (pre +:+ "$$" +:+ post))) dependencies =
  Ok (assembled_script (createDependencyStrings dependencies)
        ("const " +:+ name +:+ " = " +:+ pre +:+ "$" +:+ post) name).
Proof.
  intros Hpf Hpn Hname Hpre Hpost Hdef.
  unfold buildWorkerScript, getFunctionString. simpl. f_equal.
  apply replace_placeholders; auto.
  intros before after.
  replace ("const " +:+ name +:+ " = " +:+ pre +:+ "$$" +:+ post)
    with (("const " +:+ name +:+ " = " +:+ pre) +:+ "$$" +:+ post)
    by (now rewrite !append_assoc).
  rewrite get_substitution_plain by (rewrite !occurs_app, Hname, Hpre; reflexivity).
  change (JsString.get_substitution placeholder_function before after ("$$" +:+ post))
    with (String "$" (JsString.get_substitution placeholder_function before after post)).
  rewrite <- (append_nil_r post) at 1.
  rewrite get_substitution_plain, append_nil_r by assumption.
  now rewrite !append_assoc.
Qed.

Lemma dollar_dollar_collapses_witness :
  buildWorkerScript TypeError
    (Some (mkFunction "price" ("(p) => '" +:+ "$$" +:+ "' + p"))) [] =
  Ok (assembled_script (createDependencyStrings [])
        ("const " +:+ "price" +:+ " = " +:+ "(p) => '" +:+ "$" +:+ "' + p") "price").
Proof.
  apply (dollar_dollar_collapses TypeError "price" "(p) => '" "' + p" []); reflexivity.
Defined.

(** X3.  A [$&] in the function's source arrives in the program text as
    the text of the function placeholder. *)
Theorem dollar_ampersand_expands (TE : string -> Error) (name pre post : string)
    (dependencies : list Dependency) :
  JsString.find_first placeholder_function (createDependencyStrings dependencies) = None ->
  JsString.find_first placeholder_name (createDependencyStrings dependencies) = None ->
  occurs "$" name = false ->
  occurs "$" pre = false ->
  occurs "$" post = false ->
  JsString.find_first placeholder_name
    ("const " +:+ name +:+ " = " +:+ pre +:+ placeholder_function +:+ post) = None ->
  buildWorkerScript TE (Some (mkFunction name (pre +:+ "$&" +:+ post))) dependencies =
  Ok (assembled_script (createDependencyStrings dependencies)
        ("const " +:+ name +:+ " = " +:+ pre +:+ placeholder_function +:+ post) name).
Proof.
  intros Hpf Hpn Hname Hpre Hpost Hdef.
  unfold buildWorkerScript, getFunctionString. simpl. f_equal.
  apply replace_placeholders; auto.
  intros before after.
  replace ("const " +:+ name +:+ " = " +:+ pre +:+ "$&" +:+ post)
    with (("const " +:+ name +:+ " = " +:+ pre) +:+ "$&" +:+ post)
    by (now rewrite !append_assoc).
  rewrite get_substitution_plain by (rewrite !occurs_app, Hname, Hpre; reflexivity).
  change (JsString.get_substitution placeholder_function before after ("$&" +:+ post))
    with (placeholder_function +:+
          JsString.get_substitution placeholder_function before after post).
  rewrite <- (append_nil_r post) at 1.
  rewrite get_substitution_plain, append_nil_r by assumption.
  now rewrite !append_assoc.
Qed.

Lemma dollar_ampersand_expands_witness :
  buildWorkerScript TypeError
    (Some (mkFunction "escape" ("(s) => s.replace(/[.*+?]/g, '\\" +:+ "$&" +:+ "')"))) [] =
  Ok (assembled_script (createDependencyStrings [])
        ("const " +:+ "escape" +:+ " = " +:+ "(s) => s.replace(/[.*+?]/g, '\\" +:+
         placeholder_function +:+ "')") "escape").
Proof.
  apply (dollar_ampersand_expands TypeError "escape"
           "(s) => s.replace(/[.*+?]/g, '\\" "')" []); reflexivity.
Defined.

(* ===================================================================== *)
(** ** The call and the constructor                                        *)
(* ===================================================================== *)


(** X5.  When the [Worker] constructor throws, the call returns a promise
    that is already rejected with the constructor's own exception, not with
    a [WorkerError]; no listener was registered, so no event changes
    anything afterwards. *)
Theorem constructor_failure_is_final (host : Host) (func : option JsFunction)
    (payload : value) (dependencies : option (list Dependency))
    (workerProps : option (gmap string value)) (text : string) (e : Error)
    (evs : list event) :
  buildWorkerScript (TypeError_reading host) func (default [] dependencies) = Ok text ->
  Worker_constructor host text (worker_options (default ∅ workerProps) payload) = Some e ->
  outcome (workerToPromise host func payload dependencies workerProps) =
    Returned (rejected_with text (RawError e))
  /\ deliver_all host (rejected_with text (RawError e)) evs =
     rejected_with text (RawError e).
Proof.
  intros Hbuild Hctor. split.
  - unfold workerToPromise. rewrite Hbuild. simpl. now rewrite Hctor.
  - induction evs as [|[e'|m] evs IH]; [reflexivity|exact IH|exact IH].
Qed.

Lemma constructor_failure_is_final_witness :
  outcome (workerToPromise (failing_host (mkError "bad option" "Error: bad option"))
             (Some (mkFunction "f" "(p) => p")) (VNum 1) None None) =
    Returned (rejected_with
                (program_text (buildWorkerScript TypeError (Some (mkFunction "f" "(p) => p")) []))
                (RawError (mkError "bad option" "Error: bad option")))
  /\ deliver_all (failing_host (mkError "bad option" "Error: bad option"))
       (rejected_with
          (program_text (buildWorkerScript TypeError (Some (mkFunction "f" "(p) => p")) []))
          (RawError (mkError "bad option" "Error: bad option")))
       [Message "res:1"; ErrorSignal (mkError "crash" "Error: crash")] =
     rejected_with
       (program_text (buildWorkerScript TypeError (Some (mkFunction "f" "(p) => p")) []))
       (RawError (mkError "bad option" "Error: bad option")).
Proof.
  apply (constructor_failure_is_final
           (failing_host (mkError "bad option" "Error: bad option"))
           (Some (mkFunction "f" "(p) => p")) (VNum 1) None None);
    reflexivity.
Defined.

(* ===================================================================== *)
(** ** The listeners                                                       *)
(* ===================================================================== *)

Section Listeners.
Variable host : Host.


Lemma message_listener_error_signal (b : bridge) (e : Error) :
  message_listener (deliver host b (ErrorSignal e)) = message_listener b.
Proof.
  unfold deliver. destruct (error_listener b); [|reflexivity].
  apply message_listener_perform.
Qed.



(** X6.  Whatever arrives, the program text and the error listener stay
    as they are, and the message listener is registered afterwards exactly
    when it was before and no message arrived (it is removed by the first
    message, whatever that message holds, and never registered again). *)
Theorem listeners_bookkeeping (b : bridge) (evs : list event) :
  script (deliver_all host b evs) = script b
  /\ error_listener (deliver_all host b evs) = error_listener b
  /\ message_listener (deliver_all host b evs) = message_listener b && no_message evs.
Proof.
  revert b. induction evs as [|ev evs IH]; intros b.
  - simpl. now rewrite andb_true_r.
  - change (deliver_all host b (ev :: evs))
      with (deliver_all host (deliver host b ev) evs).
    destruct (IH (deliver host b ev)) as (Hs & He & Hm).
    rewrite Hs, He, Hm, script_deliver, error_listener_deliver.
    split; [reflexivity|]. split; [reflexivity|].
    destruct ev as [e|m].
    + now rewrite message_listener_error_signal.
    + rewrite message_listener_after_message. simpl. now rewrite andb_false_r.
Qed.


End Listeners.

(* ===================================================================== *)
(** ** Envelopes                                                           *)
(* ===================================================================== *)

Lemma promise_first_message (host : Host) (program m : string) :
  promise (deliver host (listening program) (Message m)) =
  settlement_of (on_message host program m).
Proof.
  unfold deliver. cbn [message_listener listening].
  rewrite promise_perform. reflexivity.
Qed.

(** X8.  An [err] message whose body decodes to [null] makes the message
    listener throw the [TypeError] of reading [message]: the promise stays
    pending, the listener is gone, and the exception escapes. *)
Theorem err_envelope_with_null_body (host : Host) (program m : string) :
  JsString.substring 0 3 m = "err" ->
  JSON_parse host (JsString.substring_from 4 m) = Ok VNull ->
  deliver host (listening program) (Message m) =
  {| script := program; promise := Pending; error_listener := true;
     message_listener := false; uncaught := [TypeError_reading host "message"] |}.
Proof.
  intros Htag Hbody. unfold deliver.
  cbn [message_listener listening script remove_message_listener].
  unfold on_message. rewrite Htag, Hbody. reflexivity.
Qed.

Lemma err_envelope_with_null_body_witness :
  deliver reference_host (listening "f()") (Message "err:null") =
  {| script := "f()"; promise := Pending; error_listener := true;
     message_listener := false; uncaught := [TypeError "message"] |}.
Proof.
  apply (err_envelope_with_null_body reference_host "f()" "err:null"); reflexivity.
Defined.

(** X9.  An [err] message whose body decodes to a value without [message]
    and [stack] (an object without these keys, a number, a string, ...)
    rejects the promise with a [WorkerError] whose message is empty and
    whose stack starts with the text [undefined]. *)
Theorem err_envelope_without_fields (host : Host) (program m : string)
    (decoded : value) :
  JsString.substring 0 3 m = "err" ->
  JSON_parse host (JsString.substring_from 4 m) = Ok decoded ->
  get_field (TypeError_reading host) decoded "message" = Ok VUndefined ->
  get_field (TypeError_reading host) decoded "stack" = Ok VUndefined ->
  exists w,
    promise (deliver host (listening program) (Message m)) = Rejected (Wrapped w)
    /\ message w = ""
    /\ stack w = "undefined" +:+ stack_banner +:+
                 JsString.trim (number_lines program) +:+ stack_trailer
    /\ generatedCode w = number_lines program.
Proof.
  intros Htag Hbody Hmsg Hstk.
  exists (new_WorkerError VUndefined VUndefined program).
  split; [|repeat split].
  rewrite promise_first_message. unfold on_message.
  rewrite Htag, Hbody. simpl. rewrite Hmsg. simpl. rewrite Hstk. reflexivity.
Qed.

Lemma err_envelope_without_fields_witness :
  exists w,
    promise (deliver reference_host (listening "f()") (Message "err:{}")) =
      Rejected (Wrapped w)
    /\ message w = ""
    /\ stack w = "undefined" +:+ stack_banner +:+
                 JsString.trim (number_lines "f()") +:+ stack_trailer
    /\ generatedCode w = number_lines "f()".
Proof.
  apply (err_envelope_without_fields reference_host "f()" "err:{}" (VObj []));
    reflexivity.
Defined.

Lemma substring_tag_of (tag : string) (c : ascii) (body : string) :
  String.length tag = 3 ->
  JsString.substring 0 3 (tag +:+ String c body) = tag
  /\ JsString.substring_from 4 (tag +:+ String c body) = body.
Proof.
  destruct tag as [|a [|b [|d [|x tag]]]]; try discriminate.
  intros _. split; reflexivity.
Qed.

(** X10.  The character at index 3 is never looked at: two messages with
    the same three-character tag and the same body are handled alike,
    whatever stands between tag and body. *)
Theorem separator_is_not_checked (host : Host) (b : bridge) (tag : string)
    (c1 c2 : ascii) (body : string) :
  String.length tag = 3 ->
  deliver host b (Message (tag +:+ String c1 body)) =
  deliver host b (Message (tag +:+ String c2 body)).
Proof.
  intros Hlen. unfold deliver, on_message.
  destruct (substring_tag_of tag c1 body Hlen) as [-> ->].
  destruct (substring_tag_of tag c2 body Hlen) as [-> ->].
  reflexivity.
Qed.

Lemma separator_is_not_checked_witness :
  deliver reference_host (listening "f()") (Message ("res" +:+ String ":" "8")) =
  deliver reference_host (listening "f()") (Message ("res" +:+ String "#" "8")).
Proof.
  apply (separator_is_not_checked reference_host (listening "f()") "res"); reflexivity.
Defined.

(* ===================================================================== *)
(** ** What the harness posts                                              *)
(* ===================================================================== *)

(** X11.  The message the harness posts for a result is never ignored and
    never rejects: the promise is fulfilled with whatever the host decodes
    from the text the host wrote for the result (the literal [undefined]
    when there is no such text), or stays pending because decoding threw. *)
Theorem result_message_resolves_or_throws (host : Host) (program : string)
    (data : value) :
  promise (deliver host (listening program) (Message (harness_then host data))) =
  match JSON_parse host (template_of (JSON_stringify host data)) with
  | Ok decoded => Fulfilled decoded
  | Throw _ => Pending
  end.
Proof.
  rewrite promise_first_message. unfold on_message, harness_then.
  rewrite tag_of_res, body_of_res.
  destruct (JSON_parse host _); reflexivity.
Qed.


(** X13.  A thrown value without [message] and [stack] (a string, a
    number, an array, a plain object) reaches the caller without any trace
    of itself: on a host whose JSON codec takes the object with both
    properties [undefined] to a text and that text to a value without the
    two properties, the message the harness posts rejects the promise with
    a [WorkerError] whose message is empty and whose stack starts with the
    text [undefined]. *)
Theorem thrown_value_without_fields_is_lost (host : Host) (program : string)
    (err : value) (text : string) (decoded : value) :
  get_field (TypeError_reading host) err "message" = Ok VUndefined ->
  get_field (TypeError_reading host) err "stack" = Ok VUndefined ->
  JSON_stringify host (VObj [("message", VUndefined); ("stack", VUndefined)]) = Some text ->
  JSON_parse host text = Ok decoded ->
  get_field (TypeError_reading host) decoded "message" = Ok VUndefined ->
  get_field (TypeError_reading host) decoded "stack" = Ok VUndefined ->
  exists posted w,
    harness_catch host err = Ok posted
    /\ promise (deliver host (listening program) (Message posted)) = Rejected (Wrapped w)
    /\ message w = ""
    /\ stack w = "undefined" +:+ stack_banner +:+
                 JsString.trim (number_lines program) +:+ stack_trailer.
Proof.
  intros Hem Hes Htext Hparse Hdm Hds.
  exists ("err:" +:+ text), (new_WorkerError VUndefined VUndefined program).
  split; [|split; [|split; reflexivity]].
  - unfold harness_catch. rewrite Hem. simpl. rewrite Hes. simpl.
    now rewrite Htext.
  - rewrite promise_first_message. unfold on_message.
    rewrite tag_of_err, body_of_err, Hparse. simpl.
    rewrite Hdm. simpl. rewrite Hds. reflexivity.
Qed.

Lemma thrown_value_without_fields_is_lost_witness :
  exists posted w,
    harness_catch reference_host (VStr "boom") = Ok posted
    /\ promise (deliver reference_host (listening "f()") (Message posted)) =
       Rejected (Wrapped w)
    /\ message w = ""
    /\ stack w = "undefined" +:+ stack_banner +:+
                 JsString.trim (number_lines "f()") +:+ stack_trailer.
Proof.
  apply (thrown_value_without_fields_is_lost reference_host "f()" (VStr "boom")
           (default "" (Json.stringify
              (VObj [("message", VUndefined); ("stack", VUndefined)])))
           (VObj []));
    reflexivity.
Defined.

(* ===================================================================== *)
(** ** The numbered dump                                                   *)
(* ===================================================================== *)

Lemma join_cons_char (c a : ascii) (h : string) (t : list string) :
  JsString.join (String c EmptyString) (String a h :: t) =
  String a (JsString.join (String c EmptyString) (h :: t)).
Proof. destruct t; reflexivity. Qed.

(** Joining the lines of a text gives the text back. *)
Lemma join_split (c : ascii) (s : string) :
  JsString.join (String c EmptyString) (JsString.split c s) = s.
Proof.
  induction s as [|a s IH]; [reflexivity|].
  simpl. destruct (Ascii.eqb_spec a c) as [->|Hne].
  - pose proof (split_not_nil c s) as Hnil.
    destruct (JsString.split c s) as [|h t]; [congruence|].
    change (JsString.join (String c EmptyString) (EmptyString :: h :: t))
      with (String c (JsString.join (String c EmptyString) (h :: t))).
    now rewrite IH.
  - pose proof (split_not_nil c s) as Hnil.
    destruct (JsString.split c s) as [|h t]; [congruence|].
    now rewrite join_cons_char, IH.
Qed.

Lemma map_indexed_inj (k : nat) (l1 l2 : list string) :
  map_indexed k l1 = map_indexed k l2 -> l1 = l2.
Proof.
  revert k l2. induction l1 as [|x l1 IH]; intros k [|y l2] H;
    try discriminate; [reflexivity|].
  simpl in H. injection H as Hhead Htail.
  apply String.app_inj in Hhead. apply String.app_inj in Hhead.
  subst. f_equal. eapply IH, Htail.
Qed.

(** X14.  The dump determines the program text: two texts with the same
    numbered dump are the same text. *)
Theorem number_lines_injective (code1 code2 : string) :
  number_lines code1 = number_lines code2 -> code1 = code2.
Proof.
  intros H.
  apply (f_equal (JsString.split JsString.newline)) in H.
  unfold number_lines, JsString.nl in H.
  rewrite !split_join in H
    by (try apply map_indexed_not_nil, split_not_nil;
        try apply map_indexed_free, split_free).
  apply map_indexed_inj in H.
  rewrite <- (join_split JsString.newline code1),
          <- (join_split JsString.newline code2).
  now rewrite H.
Qed.

Lemma number_lines_injective_witness :
  ("a" +:+ JsString.nl +:+ "b") = String "a" (String JsString.newline "b").
Proof.
  apply (number_lines_injective ("a" +:+ JsString.nl +:+ "b")
           (String "a" (String JsString.newline "b"))).
  reflexivity.
Defined.

(* ===================================================================== *)
(** ** Counting the statements                                             *)
(* ===================================================================== *)

(** X15.  The number of statements emitted is the number of declarations
    with a non-empty [exports] plus the number of declarations with a
    non-empty [default]; so it is at most twice the number of
    declarations, and zero for the empty list. *)
Theorem depStrings_count (dependencies : list Dependency) :
  length (depStrings dependencies) =
    length (List.filter has_exports dependencies) +
    length (List.filter has_default dependencies)
  /\ length (depStrings dependencies) <= 2 * length dependencies.
Proof.
  rewrite depStrings_flat_map.
  induction dependencies as [|d deps [IH1 IH2]]; [simpl; lia|].
  simpl. rewrite length_app.
  assert (Hd : length (binding_statements d) =
               (if has_exports d then 1 else 0) + (if has_default d then 1 else 0)).
  { unfold binding_statements, named_exports_part, default_binding_part,
      has_exports, has_default.
    destruct (dep_exports d) as [[|n ns]|], (dep_default d) as [[|c s]|];
      reflexivity. }
  rewrite Hd.
  destruct (has_exports d), (has_default d); simpl; lia.
Qed.

(* ===================================================================== *)
(** ** A settled promise                                                   *)
(* ===================================================================== *)

(** X16.  Once the events so far have settled the promise, no further
    event changes its state: not a failure signal after a result, not a
    result after a failure signal. *)
Theorem settled_promise_is_final (host : Host) (program : string)
    (before after : list event) :
  is_settled (promise (deliver_all host (listening program) before)) = true ->
  promise (deliver_all host (listening program) (before ++ after)) =
  promise (deliver_all host (listening program) before).
Proof.
  intros H. unfold deliver_all. rewrite fold_left_app.
  now apply promise_deliver_all_settled.
Qed.

Lemma settled_promise_is_final_witness :
  promise (deliver_all reference_host (listening "f()")
             ([Message "res:8"] ++
              [ErrorSignal (mkError "crash" "Error: crash"); Message "err:{}"])) =
  promise (deliver_all reference_host (listening "f()") [Message "res:8"]).
Proof.
  apply (settled_promise_is_final reference_host "f()" [Message "res:8"]).
  reflexivity.
Defined.
